(** * Placement tracker: data/access layer and request handlers

    A shallow embedding of [app/database_utls.py], [app/database.py],
    [app/app-utls.py] and [app/placement_api.py].

    Python code that talks to the SQLAlchemy session is written in a
    state-and-exception monad over a [World]: the committed rows of the
    engine, the open session (pending instances and the rows written by
    the current transaction), the mapped instances the request has built,
    and the environment the code cannot control (engine outages, salts,
    the console). *)

From Stdlib Require Import ZArith List String Bool Arith Lia Floats DecimalString.
Import ListNotations.

Local Open Scope string_scope.
Local Open Scope list_scope.
Local Open Scope Z_scope.

(** ** Python runtime: exceptions and results *)

Inductive exn : Type :=
| HTTPException (status_code : Z) (detail : string)
| AttributeError (msg : string)
| IntegrityError (msg : string)
| InvalidRequestError (msg : string)
| OperationalError (msg : string)
| TypeError (msg : string)
| OverflowError (msg : string).

Inductive result (A : Type) : Type :=
| Ok (a : A)
| Raise (e : exn).

Arguments Ok {A} a.
Arguments Raise {A} e.

(** [str(e)] as used by the f-string in [create_user].  For an exception
    of SQLAlchemy the text is SQLAlchemy's rendering (DBAPI class, message,
    statement, parameters), which is left to [sqlalchemy_str]; the [msg]
    these carry is the bare message of the driver. *)
Definition str_exn (sqlalchemy_str : exn -> string) (e : exn) : string :=
  match e with
  | HTTPException c d => (NilZero.string_of_int (Z.to_int c) ++ ": " ++ d)%string
  | AttributeError m => m
  | TypeError m => m
  | OverflowError m => m
  | IntegrityError _ => sqlalchemy_str e
  | InvalidRequestError _ => sqlalchemy_str e
  | OperationalError _ => sqlalchemy_str e
  end.

(** ** app/database_utls.py: mapped classes and schemas *)

(** [datetime.datetime]; [tzinfo] is the UTC offset in seconds of an
    aware value, [None] for a naive one. *)
Record datetime : Type := mk_datetime {
  year : Z; month : Z; day : Z; hour : Z; minute : Z; second : Z;
  microsecond : Z; tzinfo : option Z
}.

(** A column that may hold NULL is an [option]: every column but the ones
    declared [nullable=False].  [id] and [is_active] are [None] on a
    transient [User] until the INSERT fills them in. *)
Module User.
Record t : Type := mk {
  id : option Z;
  full_name : string;
  email : string;
  hashed_password : string;
  account_type : string;
  is_active : option bool
}.
End User.

Module Company.
Record t : Type := mk {
  id : option Z;
  name : option string;
  industry : option string;
  location : option string
}.
End Company.

Module Drive.
Record t : Type := mk {
  id : option Z;
  company_id : option Z;
  role : option string;
  package_lpa : option float;
  deadline : option datetime
}.
End Drive.

Module Application.
Record t : Type := mk {
  id : option Z;
  user_id : option Z;
  drive_id : option Z;
  status : option string;
  applied_date : option datetime
}.
End Application.

Module UserCreate.
Record t : Type := mk {
  full_name : string;
  email : string;
  password : string;
  account_type : string
}.
End UserCreate.

(** A value held by a pydantic field. *)
Inductive pyval : Type :=
| PyInt (z : Z)
| PyStr (s : string).

Module UserSchema.
Record t : Type := mk {
  id : Z;
  full_name : string;
  email : string;
  account_type : string
}.

(** Attribute access on a validated model.  The class declares four
    fields and keeps no extra ones, so any other name raises. *)
Definition getattr (o : t) (attr : string) : result pyval :=
  if String.eqb attr "id" then Ok (PyInt (id o))
  else if String.eqb attr "full_name" then Ok (PyStr (full_name o))
  else if String.eqb attr "email" then Ok (PyStr (email o))
  else if String.eqb attr "account_type" then Ok (PyStr (account_type o))
  else Raise (AttributeError
                ("'UserSchema' object has no attribute '" ++ attr ++ "'")%string).

End UserSchema.

Module DriveBase.
Record t : Type := mk {
  company_id : Z;
  role : string;
  package_lpa : float;
  deadline : datetime
}.
End DriveBase.

(** ** The store *)

Record Database : Type := mk_Database {
  users : list User.t;
  companies : list Company.t;
  drives : list Drive.t;
  applications : list Application.t
}.

(** An instance of a mapped class, as [Session.add] receives it. *)
Inductive Entity : Type :=
| EUser (u : User.t)
| ECompany (c : Company.t)
| EDrive (d : Drive.t).

Definition ref : Type := nat.

(** [sessionmaker(autocommit=False, autoflush=False, bind=engine)]:
    [new] are the instances added and not yet flushed, [txn] the rows as
    the open transaction sees them once it has written ([None]: nothing
    written since the last commit or rollback). *)
Record Session : Type := mk_Session {
  new : list ref;
  txn : option Database;
  autoflush : bool
}.

Record World : Type := mk_World {
  engine : Database;            (* committed rows of placement.db *)
  heap : list Entity;           (* mapped instances built so far *)
  db : Session;
  clock : nat;                  (* statements sent to the engine *)
  outage : nat -> option exn;   (* which of them the engine fails *)
  draws : nat;                  (* salts drawn *)
  urandom : nat -> string;
  sqlalchemy_str : exn -> string;  (* how SQLAlchemy renders its exceptions *)
  stdout : list string
}.

Definition set_engine (e : Database) (w : World) : World :=
  mk_World e (heap w) (db w) (clock w) (outage w) (draws w) (urandom w)
           (sqlalchemy_str w) (stdout w).
Definition set_heap (h : list Entity) (w : World) : World :=
  mk_World (engine w) h (db w) (clock w) (outage w) (draws w) (urandom w)
           (sqlalchemy_str w) (stdout w).
Definition set_db (s : Session) (w : World) : World :=
  mk_World (engine w) (heap w) s (clock w) (outage w) (draws w) (urandom w)
           (sqlalchemy_str w) (stdout w).
Definition tick (w : World) : World :=
  mk_World (engine w) (heap w) (db w) (S (clock w)) (outage w) (draws w) (urandom w)
           (sqlalchemy_str w) (stdout w).
Definition draw (w : World) : World :=
  mk_World (engine w) (heap w) (db w) (clock w) (outage w) (S (draws w)) (urandom w)
           (sqlalchemy_str w) (stdout w).
Definition emit (line : string) (w : World) : World :=
  mk_World (engine w) (heap w) (db w) (clock w) (outage w) (draws w) (urandom w)
           (sqlalchemy_str w) (stdout w ++ [line]).

(** The rows a statement of the session reads. *)
Definition view (w : World) : Database :=
  match txn (db w) with
  | Some d => d
  | None => engine w
  end.

(** ** The monad *)

Definition M (A : Type) : Type := World -> result A * World.

Definition ret {A} (a : A) : M A := fun w => (Ok a, w).

Definition bind {A B} (m : M A) (k : A -> M B) : M B :=
  fun w =>
    match m w with
    | (Ok a, w') => k a w'
    | (Raise e, w') => (Raise e, w')
    end.

Definition raise {A} (e : exn) : M A := fun w => (Raise e, w).

(** [try: body  except Exception as e: handler e]. *)
Definition try_except {A} (body : M A) (handler : exn -> M A) : M A :=
  fun w =>
    match body w with
    | (Ok a, w') => (Ok a, w')
    | (Raise e, w') => handler e w'
    end.

(** [try: body  finally: final]. *)
Definition try_finally {A} (body : M A) (final : M unit) : M A :=
  fun w =>
    match body w with
    | (r, w') =>
        match final w' with
        | (Ok _, w'') => (r, w'')
        | (Raise e, w'') => (Raise e, w'')
        end
    end.

Definition lift {A} (r : result A) : M A := fun w => (r, w).

Definition run {A} (m : M A) (w : World) : result A * World := m w.

Declare Scope py_scope.
Delimit Scope py_scope with py.
Notation "x <- m ;; k" := (bind m (fun x => k))
  (at level 61, m at next level, right associativity) : py_scope.
Notation "m ;; k" := (bind m (fun _ => k))
  (at level 61, right associativity) : py_scope.
Local Open Scope py_scope.

Definition print (line : string) : M unit := fun w => (Ok tt, emit line w).

(** ** The SQLAlchemy session over the SQLite engine *)

(** Every statement sent to the engine is one round trip, and the
    environment decides whether the engine fails it. *)
Definition round_trip : M unit :=
  fun w =>
    match outage w (clock w) with
    | Some e => (Raise e, tick w)
    | None => (Ok tt, tick w)
    end.

(** An [int] bound to a statement must fit SQLite's signed 64-bit
    INTEGER; the driver raises otherwise. *)
Definition int64 (n : Z) : bool :=
  Z.leb (-9223372036854775808) n && Z.leb n 9223372036854775807.

Definition bind_ints {A} (params : list Z) (m : M A) : M A :=
  if forallb int64 params then m
  else raise (OverflowError "Python int too large to convert to SQLite INTEGER").

(** What a FLOAT column holds after a [float] was stored: NaN is stored
    as NULL, and either zero as 0.0. *)
Definition sqlite_real (x : float) : option float :=
  if PrimFloat.is_nan x then None
  else if PrimFloat.is_zero x then Some 0%float
  else Some x.

(** What a DATETIME column holds after a [datetime] was stored: the
    fields down to the microsecond, and no offset. *)
Definition sqlite_datetime (t : datetime) : datetime :=
  mk_datetime (year t) (month t) (day t) (hour t) (minute t) (second t)
    (microsecond t) None.

(** SQL [column = k]; a NULL column matches nothing. *)
Definition id_is (k : Z) (column : option Z) : bool :=
  match column with
  | Some j => Z.eqb j k
  | None => false
  end.

(** [INTEGER PRIMARY KEY] of SQLite: one more than the largest rowid of
    the table, 1 in an empty table (below the 64-bit limit). *)
Fixpoint max_id (ids : list (option Z)) : option Z :=
  match ids with
  | [] => None
  | o :: rest =>
      match o, max_id rest with
      | Some k, Some m => Some (Z.max k m)
      | Some k, None => Some k
      | None, m => m
      end
  end.

Definition next_id (ids : list (option Z)) : Z :=
  match max_id ids with
  | Some m => m + 1
  | None => 1
  end.

(** INSERT INTO users: primary key and [unique=True] on email are
    checked, [id] and the column default of [is_active] are filled in. *)
Definition insert_user (u : User.t) (d : Database)
  : result (User.t * Database) :=
  if existsb (fun r => String.eqb (User.email r) (User.email u)) (users d)
  then Raise (IntegrityError "UNIQUE constraint failed: users.email")
  else
    let k := match User.id u with
             | Some k => k
             | None => next_id (map User.id (users d))
             end in
    if existsb (fun r => id_is k (User.id r)) (users d)
    then Raise (IntegrityError "UNIQUE constraint failed: users.id")
    else
      let row := User.mk (Some k) (User.full_name u) (User.email u)
                   (User.hashed_password u) (User.account_type u)
                   (match User.is_active u with
                    | Some b => Some b
                    | None => Some true
                    end) in
      Ok (row, mk_Database (users d ++ [row]) (companies d) (drives d)
                 (applications d)).

(** INSERT INTO companies: [unique=True] on name; NULL names never
    collide. *)
Definition insert_company (c : Company.t) (d : Database)
  : result (Company.t * Database) :=
  if existsb (fun r => match Company.name r, Company.name c with
                       | Some a, Some b => String.eqb a b
                       | _, _ => false
                       end) (companies d)
  then Raise (IntegrityError "UNIQUE constraint failed: companies.name")
  else
    let k := match Company.id c with
             | Some k => k
             | None => next_id (map Company.id (companies d))
             end in
    if existsb (fun r => id_is k (Company.id r)) (companies d)
    then Raise (IntegrityError "UNIQUE constraint failed: companies.id")
    else
      let row := Company.mk (Some k) (Company.name c) (Company.industry c)
                   (Company.location c) in
      Ok (row, mk_Database (users d) (companies d ++ [row]) (drives d)
                 (applications d)).

(** INSERT INTO drives: the bound [company_id] must fit 64 bits, SQLite
    does not enforce the foreign key, and the row holds the values as
    the columns store them. *)
Definition insert_drive (x : Drive.t) (d : Database)
  : result (Drive.t * Database) :=
  if match Drive.company_id x with
     | Some c => int64 c
     | None => true
     end
  then
    let k := match Drive.id x with
             | Some k => k
             | None => next_id (map Drive.id (drives d))
             end in
    if existsb (fun r => id_is k (Drive.id r)) (drives d)
    then Raise (IntegrityError "UNIQUE constraint failed: drives.id")
    else
      let row := Drive.mk (Some k) (Drive.company_id x) (Drive.role x)
                   (match Drive.package_lpa x with
                    | Some f => sqlite_real f
                    | None => None
                    end)
                   (option_map sqlite_datetime (Drive.deadline x)) in
      Ok (row, mk_Database (users d) (companies d) (drives d ++ [row])
                 (applications d))
  else Raise (OverflowError "Python int too large to convert to SQLite INTEGER").

(** Assignment to the instance at an address. *)
Fixpoint store (h : list Entity) (r : ref) (e : Entity) : list Entity :=
  match h, r with
  | [], _ => []
  | _ :: rest, O => e :: rest
  | x :: rest, S r' => x :: store rest r' e
  end.

Definition deref (w : World) (r : ref) : option Entity := nth_error (heap w) r.

(** Calling a mapped class builds a transient instance. *)
Definition alloc (e : Entity) : M ref :=
  fun w => (Ok (List.length (heap w)), set_heap (heap w ++ [e]) w).

(** Reading the attributes of an instance. *)
Definition load (r : ref) : M Entity :=
  fun w =>
    match deref w r with
    | Some e => (Ok e, w)
    | None => (Raise (AttributeError "no such instance"), w)
    end.

(** The unit of work: the pending instances are inserted in the order
    they were added, each instance receiving its row's values. *)
Fixpoint flush_all (pending : list ref) (d : Database) (h : list Entity)
  : result (Database * list Entity) :=
  match pending with
  | [] => Ok (d, h)
  | r :: rest =>
      match nth_error h r with
      | Some (EUser u) =>
          match insert_user u d with
          | Ok (row, d') => flush_all rest d' (store h r (EUser row))
          | Raise e => Raise e
          end
      | Some (ECompany c) =>
          match insert_company c d with
          | Ok (row, d') => flush_all rest d' (store h r (ECompany row))
          | Raise e => Raise e
          end
      | Some (EDrive x) =>
          match insert_drive x d with
          | Ok (row, d') => flush_all rest d' (store h r (EDrive row))
          | Raise e => Raise e
          end
      | None => flush_all rest d h
      end
  end.

Definition db_add (r : ref) : M unit :=
  fun w =>
    (Ok tt, set_db (mk_Session (new (db w) ++ [r]) (txn (db w)) (autoflush (db w))) w).

(** [Session.flush]: nothing is sent when nothing is pending; when an
    INSERT fails the session rolls its transaction back and expunges the
    pending instances before the exception leaves. *)
Definition db_flush : M unit :=
  fun w =>
    match new (db w) with
    | [] => (Ok tt, w)
    | _ :: _ =>
        match round_trip w with
        | (Raise e, w1) =>
            (Raise e, set_db (mk_Session [] None (autoflush (db w1))) w1)
        | (Ok _, w1) =>
            match flush_all (new (db w1)) (view w1) (heap w1) with
            | Ok (d', h') =>
                (Ok tt, set_heap h' (set_db (mk_Session [] (Some d') (autoflush (db w1))) w1))
            | Raise e =>
                (Raise e, set_db (mk_Session [] None (autoflush (db w1))) w1)
            end
        end
    end.

(** [Session.commit]: flush, then COMMIT; only a COMMIT that the engine
    accepts makes the transaction's rows the committed ones. *)
Definition db_commit : M unit :=
  db_flush ;;
  round_trip ;;
  fun w =>
    (Ok tt, set_db (mk_Session (new (db w)) None (autoflush (db w)))
              (set_engine (view w) w)).

(** [Session.rollback]: the transaction's rows and the pending instances
    are discarded. *)
Definition db_rollback : M unit :=
  fun w => (Ok tt, set_db (mk_Session [] None (autoflush (db w))) w).

(** [Session.refresh]: SELECT the instance's row by primary key. *)
Definition db_refresh (r : ref) : M unit :=
  e <- load r ;;
  match e with
  | EUser u =>
      match User.id u with
      | None => raise (InvalidRequestError "Instance is not persistent within this Session")
      | Some k =>
          round_trip ;;
          fun w =>
            match find (fun row => id_is k (User.id row)) (users (view w)) with
            | Some row => (Ok tt, set_heap (store (heap w) r (EUser row)) w)
            | None => (Raise (InvalidRequestError "Could not refresh instance"), w)
            end
      end
  | ECompany c =>
      match Company.id c with
      | None => raise (InvalidRequestError "Instance is not persistent within this Session")
      | Some k =>
          round_trip ;;
          fun w =>
            match find (fun row => id_is k (Company.id row)) (companies (view w)) with
            | Some row => (Ok tt, set_heap (store (heap w) r (ECompany row)) w)
            | None => (Raise (InvalidRequestError "Could not refresh instance"), w)
            end
      end
  | EDrive x =>
      match Drive.id x with
      | None => raise (InvalidRequestError "Instance is not persistent within this Session")
      | Some k =>
          round_trip ;;
          fun w =>
            match find (fun row => id_is k (Drive.id row)) (drives (view w)) with
            | Some row => (Ok tt, set_heap (store (heap w) r (EDrive row)) w)
            | None => (Raise (InvalidRequestError "Could not refresh instance"), w)
            end
      end
  end.

(** [db.query(T).filter(criterion)]: a SELECT; it flushes first only in
    a session configured with [autoflush=True].  [params] are the [int]s
    of the caller that the criterion binds. *)
Definition db_query {A} (table : Database -> list A) (params : list Z)
           (criterion : A -> bool) : M (list A) :=
  (fun w => if autoflush (db w) then db_flush w else (Ok tt, w)) ;;
  bind_ints params
    (round_trip ;;
     fun w => (Ok (filter criterion (table (view w))), w)).

Definition all {A} (q : M (list A)) : M (list A) := q.

Definition first {A} (q : M (list A)) : M (option A) :=
  rows <- q ;; ret (hd_error rows).

(** [Session.close]: the transaction is released and every instance
    expunged.  A closed [Session] can be used again, it starts a new
    transaction when it is; so the session has no state that tells
    closed from rolled back, and neither has this one. *)
Definition db_close : M unit :=
  fun w => (Ok tt, set_db (mk_Session [] None (autoflush (db w))) w).

(** ** app/database.py *)

Definition SessionLocal : M unit :=
  fun w => (Ok tt, set_db (mk_Session [] None false) w).

(** ** app/placement_api.py: the session dependency *)

(** [db = SessionLocal(); try: yield db; finally: db.close()], with the
    endpoint running at the [yield]. *)
Definition get_db_session {A} (endpoint : M A) : M A :=
  SessionLocal ;; try_finally endpoint db_close.

(** ** passlib *)

(** [CryptContext(schemes=["bcrypt"])]: [hash] takes the salt it draws. *)
Record CryptContext : Type := mk_CryptContext {
  hash : string -> string -> string;
  verify : string -> string -> bool
}.

Record Recommendation : Type := mk_Recommendation {
  role : string;
  match_score : float
}.

Module LoginResponse.
Record t : Type := mk {
  message : string;
  user_id : option Z;
  account_type : string;
  token : string
}.
End LoginResponse.

Module RecommendationsResponse.
Record t : Type := mk {
  user_id : Z;
  recommendations : list Recommendation
}.
End RecommendationsResponse.

Section Service.

Variable pwd_context : CryptContext.

(** ** app/app-utls.py *)

Definition verify_password (plain_password hashed_password : string) : bool :=
  verify pwd_context plain_password hashed_password.

Definition get_password_hash (password : string) : M string :=
  fun w => (Ok (hash pwd_context (urandom w (draws w)) password), draw w).

Definition get_user_by_email (email : string) : M (option User.t) :=
  first (db_query users [] (fun u => String.eqb (User.email u) email)).

Definition create_user (user : UserCreate.t) : M ref :=
  hashed_password <- get_password_hash (UserCreate.password user) ;;
  db_user <- alloc (EUser (User.mk None (UserCreate.full_name user)
                             (UserCreate.email user) hashed_password
                             (UserCreate.account_type user) None)) ;;
  try_except
    (db_add db_user ;;
     db_commit ;;
     db_refresh db_user ;;
     ret db_user)
    (fun e =>
       db_rollback ;;
       (fun w =>
          print ("Database error during user creation: "
                 ++ str_exn (sqlalchemy_str w) e)%string w) ;;
       raise e).

Definition get_drives_by_company_id (company_id : Z) : M (list Drive.t) :=
  all (db_query drives [company_id]
         (fun d => id_is company_id (Drive.company_id d))).

Definition get_recommendations (user_id : Z) : list Recommendation :=
  (* the doubles nearest to 0.85 and 0.79 *)
  [ mk_Recommendation "Simulated Data Analyst" 0x1.b333333333333p-1%float;
    mk_Recommendation "Simulated Software Engineer" 0x1.947ae147ae148p-1%float ].

(** ** app/placement_api.py: endpoints *)

Definition register_user (user : UserCreate.t) : M ref :=
  db_user <- get_user_by_email (UserCreate.email user) ;;
  match db_user with
  | Some _ => raise (HTTPException 400 "Email already registered")
  | None => create_user user
  end.

(** [not db_user or not verify_password(user_data.password, ...)]: the
    right operand is evaluated only for a user that exists, and its first
    argument is the attribute [password] of the [UserSchema] body. *)
Definition login_user (user_data : UserSchema.t) : M LoginResponse.t :=
  db_user <- get_user_by_email (UserSchema.email user_data) ;;
  match db_user with
  | None => raise (HTTPException 401 "Invalid credentials")
  | Some u =>
      password <- lift (UserSchema.getattr user_data "password") ;;
      match password with
      | PyStr p =>
          if negb (verify_password p (User.hashed_password u))
          then raise (HTTPException 401 "Invalid credentials")
          else ret (LoginResponse.mk "Login successful" (User.id u)
                      (User.account_type u) "SIMULATED_TOKEN")
      | PyInt _ => raise (TypeError "secret must be unicode or bytes, not int")
      end
  end.

Definition create_drive (drive : DriveBase.t) : M (option Drive.t) :=
  company <- first (db_query companies [DriveBase.company_id drive]
                      (fun c => id_is (DriveBase.company_id drive) (Company.id c))) ;;
  match company with
  | None => raise (HTTPException 404 "Company ID not found.")
  | Some _ =>
      db_drive <- alloc (EDrive (Drive.mk None
                                   (Some (DriveBase.company_id drive))
                                   (Some (DriveBase.role drive))
                                   (Some (DriveBase.package_lpa drive))
                                   (Some (DriveBase.deadline drive)))) ;;
      db_add db_drive ;;
      db_commit ;;
      db_refresh db_drive ;;
      e <- load db_drive ;;
      match e with
      | EDrive x =>
          first (db_query drives []
                   (fun d => match Drive.id x with
                             | Some k => id_is k (Drive.id d)
                             | None => match Drive.id d with
                                       | None => true
                                       | Some _ => false
                                       end
                             end))
      | EUser _ | ECompany _ => raise (AttributeError "id")
      end
  end.

Definition get_drives_by_company (company_id : Z) : M (list Drive.t) :=
  drives <- all (db_query drives [company_id]
                   (fun d => id_is company_id (Drive.company_id d))) ;;
  match drives with
  | [] => raise (HTTPException 404 "No drives found for this company.")
  | _ :: _ => ret drives
  end.

Definition get_user_recommendations (user_id : Z) : RecommendationsResponse.t :=
  let recommendations := get_recommendations user_id in
  RecommendationsResponse.mk user_id recommendations.

(** [Base.metadata.create_all] leaves existing tables alone; the session
    is closed on the normal exit only. *)
Definition startup_event : M unit :=
  SessionLocal ;;
  company <- first (db_query companies [] (fun _ => true)) ;;
  match company with
  | Some _ => ret tt
  | None =>
      print "Creating initial company and drive data..." ;;
      c1 <- alloc (ECompany (Company.mk None (Some "TechCorp Solutions")
                               (Some "IT") (Some "Pune"))) ;;
      db_add c1 ;;
      db_commit ;;
      db_refresh c1 ;;
      e <- load c1 ;;
      match e with
      | ECompany c =>
          d1 <- alloc (EDrive (Drive.mk None (Company.id c)
                                 (Some "Software Intern") (Some 6.5%float)
                                 (Some (mk_datetime 2025 11 1 0 0 0 0 None)))) ;;
          db_add d1 ;;
          db_commit ;;
          print "Initial data created successfully."
      | EUser _ | EDrive _ => raise (AttributeError "id")
      end
  end ;;
  db_close.

End Service.

(** ** app/database.py: the session dependency, once more *)

(** [get_db] has the body of [get_db_session]. *)
Definition get_db {A} (endpoint : M A) : M A :=
  SessionLocal ;; try_finally endpoint db_close.

(** ** Preferences: the simulated document store *)

(** [str(n)] of an [int], as an f-string renders it. *)
Definition str_int (n : Z) : string := NilZero.string_of_int (Z.to_int n).

Module UserPreferenceSchema.
Record t : Type := mk {
  user_id : Z;
  theme : string
}.

(** Validation of a body: [theme] defaults to "light". *)
Definition init (user_id : Z) (theme : option string) : t :=
  mk user_id (match theme with
              | Some s => s
              | None => "light"
              end).

Definition model_dump (o : t) : list (string * pyval) :=
  [ ("user_id", PyInt (user_id o)); ("theme", PyStr (theme o)) ].
End UserPreferenceSchema.

Module PreferencesResponse.
Record t : Type := mk {
  message : string;
  data : list (string * pyval)
}.
End PreferencesResponse.

(** app/app-utls.py *)
Definition update_user_preference (user_id : Z)
           (preference : list (string * pyval)) : M bool :=
  print ("MongoDB Simulation: Updated preferences for user " ++ str_int user_id)%string ;;
  ret true.

(** app/placement_api.py *)
Definition update_preferences (user_id : Z) (preference : UserPreferenceSchema.t)
  : M PreferencesResponse.t :=
  if negb (Z.eqb user_id (UserPreferenceSchema.user_id preference))
  then raise (HTTPException 400 "User ID mismatch in path and body.")
  else
    update_user_preference user_id (UserPreferenceSchema.model_dump preference) ;;
    ret (PreferencesResponse.mk "User preferences updated (MongoDB simulated)"
           (UserPreferenceSchema.model_dump preference)).

(** ** Vocabulary of the statements *)

(** No statement sent from now on is failed by the engine. *)
Definition healthy (w : World) : Prop :=
  forall n, (clock w <= n)%nat -> outage w n = None.

(** A session as [SessionLocal()] hands it out, or as it is again after
    a commit or a rollback: nothing pending, nothing written. *)
Definition clean (w : World) : Prop :=
  new (db w) = [] /\ txn (db w) = None.

Definition has_email (email : string) (u : User.t) : bool :=
  String.eqb (User.email u) email.

Definition email_taken (d : Database) (email : string) : bool :=
  existsb (has_email email) (users d).


Definition company_known (d : Database) (company_id : Z) : bool :=
  existsb (fun c => id_is company_id (Company.id c)) (companies d).

Definition drives_of (d : Database) (company_id : Z) : list Drive.t :=
  filter (fun x => id_is company_id (Drive.company_id x)) (drives d).

(** The row an accepted registration adds, and the database with it. *)
Definition user_row (pwd : CryptContext) (w : World) (user : UserCreate.t)
  : User.t :=
  User.mk (Some (next_id (map User.id (users (engine w)))))
    (UserCreate.full_name user) (UserCreate.email user)
    (hash pwd (urandom w (draws w)) (UserCreate.password user))
    (UserCreate.account_type user) (Some true).

Definition with_user (row : User.t) (d : Database) : Database :=
  mk_Database (users d ++ [row]) (companies d) (drives d) (applications d).

(** The row an accepted drive becomes, with the values as stored. *)
Definition drive_row (d : Database) (drive : DriveBase.t) : Drive.t :=
  Drive.mk (Some (next_id (map Drive.id (drives d))))
    (Some (DriveBase.company_id drive)) (Some (DriveBase.role drive))
    (sqlite_real (DriveBase.package_lpa drive))
    (Some (sqlite_datetime (DriveBase.deadline drive))).

Definition with_drive (row : Drive.t) (d : Database) : Database :=
  mk_Database (users d) (companies d) (drives d ++ [row]) (applications d).

(** The ways [db.commit()] fails for one pending user, through its
    INSERT or its COMMIT: the engine fails the INSERT, the email breaks the
    unique constraint, or the engine fails the COMMIT. *)
Inductive commit_failure (w : World) (email : string) : exn -> Prop :=
| insert_outage e :
    outage w (clock w) = Some e ->
    commit_failure w email e
| duplicate_email :
    outage w (clock w) = None ->
    email_taken (view w) email = true ->
    commit_failure w email
      (IntegrityError "UNIQUE constraint failed: users.email")
| commit_outage e :
    outage w (clock w) = None ->
    email_taken (view w) email = false ->
    outage w (S (clock w)) = Some e ->
    commit_failure w email e.


(** ** Vocabulary of the further properties *)

(** The unique constraint on [users.email]. *)
Definition emails_unique (d : Database) : Prop :=
  NoDup (map User.email (users d)).

(** A primary key: every row has one and no two rows share it. *)
Definition keyed {A} (key : A -> option Z) (rows : list A) : Prop :=
  (forall r, In r rows -> key r <> None) /\ NoDup (map key rows).

(** Every drive names a company of the table. *)
Definition drives_reference_companies (d : Database) : Prop :=
  forall x, In x (drives d) ->
    exists c, Drive.company_id x = Some c /\ company_known d c = true.

(** The rows [startup_event] adds to a database without companies. *)
Definition seed_company_row : Company.t :=
  Company.mk (Some 1) (Some "TechCorp Solutions") (Some "IT") (Some "Pune").

Definition seed_drive_row (d : Database) : Drive.t :=
  Drive.mk (Some (next_id (map Drive.id (drives d)))) (Some 1)
    (Some "Software Intern") (Some 6.5%float)
    (Some (mk_datetime 2025 11 1 0 0 0 0 None)).

Definition with_company (row : Company.t) (d : Database) : Database :=
  mk_Database (users d) (companies d ++ [row]) (drives d) (applications d).

(** The same registration with another password. *)
Definition with_password (user : UserCreate.t) (password : string) : UserCreate.t :=
  UserCreate.mk (UserCreate.full_name user) (UserCreate.email user) password
    (UserCreate.account_type user).

(** ** Concrete worlds for worked runs *)

(** A stand-in context: the digest is the secret followed by the salt.
    It only lets the runs below compute and carries no cryptographic
    meaning. *)
Definition toy_context : CryptContext :=
  mk_CryptContext
    (fun salt secret => (secret ++ "$" ++ salt)%string)
    (fun secret digest => String.prefix (secret ++ "$")%string digest).

Definition empty : Database := mk_Database [] [] [] [].

(** The rows [startup_event] leaves in an empty database
    ([startup_event_seeds] below). *)
Definition seeded : Database :=
  mk_Database []
    [ Company.mk (Some 1) (Some "TechCorp Solutions") (Some "IT") (Some "Pune") ]
    [ Drive.mk (Some 1) (Some 1) (Some "Software Intern") (Some 6.5%float)
        (Some (mk_datetime 2025 11 1 0 0 0 0 None)) ]
    [].

(** A stand-in for SQLAlchemy's rendering: the driver's class and
    message. *)
Definition toy_str (e : exn) : string :=
  match e with
  | IntegrityError m => ("(sqlite3.IntegrityError) " ++ m)%string
  | OperationalError m => ("(sqlite3.OperationalError) " ++ m)%string
  | InvalidRequestError m => m
  | HTTPException _ m | AttributeError m | TypeError m | OverflowError m => m
  end.

Definition world_of (d : Database) : World :=
  mk_World d [] (mk_Session [] None false) 0 (fun _ => None) 0
           (fun _ => "salt") toy_str [].

Definition alice : UserCreate.t :=
  UserCreate.mk "Alice" "alice@example.com" "s3cret" "student".

(** A second stand-in context, whose digest reads the first eight
    characters of the secret only, so that different secrets can share a
    digest. *)
Definition short_context : CryptContext :=
  mk_CryptContext
    (fun salt secret => (String.substring 0 8 secret ++ "$" ++ salt)%string)
    (fun secret digest => String.prefix (String.substring 0 8 secret ++ "$")%string digest).


Definition sde_drive : DriveBase.t :=
  DriveBase.mk 1 "SDE" 7.5%float (mk_datetime 2025 12 1 0 0 0 0 None).

(** ** Facts about the store *)

Section StoreFacts.

Context {A : Type}.

Lemma nth_error_snoc (l : list A) (x : A) :
  nth_error (l ++ [x]) (List.length l) = Some x.
Proof. induction l as [|y l IH]; simpl; auto. Qed.

Lemma filter_nil_iff (p : A -> bool) (l : list A) :
  filter p l = [] <-> (forall x, In x l -> p x = false).
Proof.
  induction l as [|y l IH]; simpl.
  - split; [intros _ x [] | reflexivity].
  - destruct (p y) eqn:Hy; split.
    + discriminate.
    + intros H. specialize (H y (or_introl eq_refl)). congruence.
    + intros H x [<- | Hx]; [assumption | now apply IH].
    + intros H. apply IH. intros x Hx. apply H. now right.
Qed.

Lemma existsb_false_iff (p : A -> bool) (l : list A) :
  existsb p l = false <-> (forall x, In x l -> p x = false).
Proof.
  induction l as [|y l IH]; simpl.
  - split; [intros _ x [] | reflexivity].
  - rewrite orb_false_iff, IH. split.
    + intros [Hy H] x [<- | Hx]; auto.
    + intros H. split; [apply H; now left | intros x Hx; apply H; now right].
Qed.

Lemma filter_snoc_only (p : A -> bool) (l : list A) (x : A) :
  existsb p l = false -> p x = true -> filter p (l ++ [x]) = [x].
Proof.
  intros Hl Hx. rewrite filter_app. simpl. rewrite Hx.
  rewrite existsb_false_iff, <- filter_nil_iff in Hl. now rewrite Hl.
Qed.

Lemma find_snoc (p : A -> bool) (l : list A) (x : A) :
  existsb p l = false -> p x = true -> find p (l ++ [x]) = Some x.
Proof.
  intros Hl Hx. induction l as [|y l IH]; simpl in *.
  - now rewrite Hx.
  - apply orb_false_iff in Hl as [Hy Hl]. rewrite Hy. auto.
Qed.

Lemma hd_error_filter_existsb (p : A -> bool) (l : list A) :
  match hd_error (filter p l) with
  | Some x => existsb p l = true /\ p x = true
  | None => existsb p l = false
  end.
Proof.
  induction l as [|y l IH]; simpl; [reflexivity|].
  destruct (p y) eqn:Hy; simpl; auto.
Qed.

(** The key SQLite hands out is not in the table yet. *)
Lemma max_id_bound (ids : list (option Z)) (k : Z) :
  In (Some k) ids -> exists m, max_id ids = Some m /\ k <= m.
Proof.
  induction ids as [|o ids IH]; simpl; [intros [] |].
  intros [-> | Hin].
  - destruct (max_id ids) as [m|]; eexists; split; try reflexivity; lia.
  - destruct (IH Hin) as (m & -> & Hm).
    destruct o as [j|]; eexists; split; try reflexivity; lia.
Qed.

Lemma next_id_absent (key : A -> option Z) (rows : list A) :
  existsb (fun r => id_is (next_id (map key rows)) (key r)) rows = false.
Proof.
  apply existsb_false_iff. intros r Hin. unfold id_is.
  destruct (key r) as [j|] eqn:Hk; [|reflexivity].
  apply Z.eqb_neq. intros ->.
  assert (Hj : In (Some (next_id (map key rows))) (map key rows)).
  { rewrite <- Hk. now apply in_map. }
  destruct (max_id_bound _ _ Hj) as (m & Hm & Hle).
  unfold next_id in Hle. rewrite Hm in Hle. lia.
Qed.

End StoreFacts.

(** NaN is stored as NULL and minus zero as zero; other floats, the
    infinities among them, are stored as they are. *)
Lemma sqlite_real_values :
  sqlite_real PrimFloat.nan = None /\
  sqlite_real PrimFloat.neg_zero = Some PrimFloat.zero /\
  sqlite_real PrimFloat.zero = Some PrimFloat.zero /\
  sqlite_real PrimFloat.infinity = Some PrimFloat.infinity /\
  sqlite_real 6.5%float = Some 6.5%float.
Proof. repeat split; reflexivity. Qed.

(** A stored [datetime] has no offset, and storing it again changes
    nothing. *)
Lemma sqlite_datetime_naive (t : datetime) :
  tzinfo (sqlite_datetime t) = None /\
  sqlite_datetime (sqlite_datetime t) = sqlite_datetime t.
Proof. split; reflexivity. Qed.

Lemma store_snoc (h : list Entity) (e e' : Entity) :
  store (h ++ [e]) (List.length h) e' = h ++ [e'].
Proof. induction h as [|x h IH]; simpl; congruence. Qed.

(** ** Engine health *)

Lemma healthy_now (w : World) : healthy w -> outage w (clock w) = None.
Proof. intros H. apply H. lia. Qed.


(** ** Symbolic execution *)

Ltac exec :=
  cbv beta iota zeta delta
    [run bind ret raise lift try_except try_finally print
     get_db_session SessionLocal db_close db_add db_commit db_flush
     db_rollback db_refresh db_query bind_ints first all load alloc deref
     round_trip view set_engine set_heap set_db tick draw emit
     engine heap db clock outage draws urandom sqlalchemy_str stdout
     new txn autoflush
     insert_user insert_company insert_drive user_row drive_row with_user with_drive
     verify_password get_password_hash get_user_by_email create_user
     get_drives_by_company_id register_user login_user create_drive
     get_drives_by_company email_taken has_email company_known drives_of clean
     fst snd] in *;
  cbn [app flush_all hd_error forallb andb option_map
       User.id User.full_name User.email User.hashed_password
       User.account_type User.is_active
       Company.id Company.name Company.industry Company.location
       Drive.id Drive.company_id Drive.role Drive.package_lpa Drive.deadline
       users companies drives applications] in *.

Ltac world w :=
  destruct w as [?eng ?hp [?nw ?tx ?af] ?clk ?out ?dr ?ur ?sa ?so].

Ltac done_run := do 2 eexists; split; [reflexivity|]; exec.

(** What [create_user] does in a clean session, case by case: the three
    failures of [db.commit()], a failure of the read-back after the COMMIT,
    and success. *)
Lemma create_user_cases pwd (w : World) (user : UserCreate.t) :
  clean w ->
  exists res w',
    run (create_user pwd user) w = (res, w') /\
    clean w' /\ outage w' = outage w /\ (clock w <= clock w')%nat /\
    autoflush (db w') = autoflush (db w) /\
    match res with
    | Ok r =>
        outage w (clock w) = None /\
        email_taken (engine w) (UserCreate.email user) = false /\
        outage w (S (clock w)) = None /\
        outage w (S (S (clock w))) = None /\
        deref w' r = Some (EUser (user_row pwd w user)) /\
        engine w' = with_user (user_row pwd w user) (engine w) /\
        stdout w' = stdout w
    | Raise e =>
        stdout w' =
          stdout w ++ [("Database error during user creation: "
                        ++ str_exn (sqlalchemy_str w) e)%string] /\
        (commit_failure w (UserCreate.email user) e /\
         engine w' = engine w) \/
        stdout w' =
          stdout w ++ [("Database error during user creation: "
                        ++ str_exn (sqlalchemy_str w) e)%string] /\
        outage w (clock w) = None /\
        email_taken (engine w) (UserCreate.email user) = false /\
        outage w (S (clock w)) = None /\
        outage w (S (S (clock w))) = Some e /\
        engine w' = with_user (user_row pwd w user) (engine w)
    end.
Proof.
  intros [Hn Ht]. world w. exec. subst. exec.
  destruct (out clk) as [e0|] eqn:O0; exec.
  { done_run. repeat split; auto.
    left. repeat split; auto. now apply insert_outage. }
  rewrite nth_error_snoc. exec.
  destruct (existsb _ (users eng)) eqn:Hdup; exec.
  { done_run. repeat split; auto.
    left. repeat split; auto. now apply duplicate_email. }
  rewrite next_id_absent. exec.
  destruct (out (S clk)) as [e1|] eqn:O1; exec.
  { done_run. repeat split; auto.
    left. repeat split; auto. now apply commit_outage. }
  rewrite store_snoc, nth_error_snoc. exec.
  destruct (out (S (S clk))) as [e2|] eqn:O2; exec.
  { done_run. repeat split; auto. right. repeat split; auto. }
  rewrite find_snoc.
  - exec. done_run.
    rewrite store_snoc, nth_error_snoc. repeat split; auto.
  - apply next_id_absent.
  - cbn. apply Z.eqb_refl.
Qed.

(** The session dependency runs the endpoint in a fresh session and
    closes it whatever the endpoint did. *)
Lemma get_db_session_run {A} (endpoint : M A) (w : World) :
  get_db_session endpoint w =
    let (r, w1) := endpoint (set_db (mk_Session [] None false) w) in
    (r, set_db (mk_Session [] None (autoflush (db w1))) w1).
Proof. exec. destruct (endpoint _) as [r w1]. reflexivity. Qed.

Lemma get_user_by_email_run (email : string) (w : World) :
  autoflush (db w) = false ->
  get_user_by_email email w =
    match outage w (clock w) with
    | Some e => (Raise e, tick w)
    | None => (Ok (hd_error (filter (has_email email) (users (view w)))), tick w)
    end.
Proof.
  intros Haf. world w. exec. subst.
  destruct (out clk); reflexivity.
Qed.

(** The first row with an email exists exactly when the email is taken. *)
Lemma first_with_email (d : Database) (email : string) :
  match hd_error (filter (has_email email) (users d)) with
  | Some u => email_taken d email = true /\ In u (users d) /\ User.email u = email
  | None => email_taken d email = false
  end.
Proof.
  unfold email_taken. induction (users d) as [|u l IH]; simpl; [reflexivity|].
  destruct (has_email email u) eqn:Hu; simpl.
  - repeat split; auto. now apply String.eqb_eq.
  - destruct (hd_error (filter (has_email email) l)); intuition.
Qed.

Lemma register_user_run pwd (user : UserCreate.t) (w : World) :
  autoflush (db w) = false ->
  register_user pwd user w =
    match outage w (clock w) with
    | Some e => (Raise e, tick w)
    | None =>
        match hd_error (filter (has_email (UserCreate.email user)) (users (view w))) with
        | Some _ => (Raise (HTTPException 400 "Email already registered"), tick w)
        | None => create_user pwd user (tick w)
        end
    end.
Proof.
  intros Haf. unfold register_user, bind.
  rewrite get_user_by_email_run by assumption.
  destruct (outage w (clock w)); [reflexivity|].
  destruct (hd_error _); reflexivity.
Qed.


(** Whatever happens, [create_user] commits nothing or exactly the new row. *)
Lemma create_user_engine pwd (w : World) (user : UserCreate.t) :
  clean w ->
  exists res w',
    create_user pwd user w = (res, w') /\
    outage w' = outage w /\ (clock w <= clock w')%nat /\
    (engine w' = engine w \/
     (email_taken (engine w) (UserCreate.email user) = false /\
      engine w' = with_user (user_row pwd w user) (engine w))).
Proof.
  intros Hc.
  destruct (create_user_cases pwd w user Hc)
    as (res & w' & Hrun & Hc' & Ho & Hk & Haf & Hres).
  exists res, w'. repeat split; auto.
  destruct res as [r|e].
  - right. intuition.
  - destruct Hres as [(_ & _ & He) | (_ & _ & Hf & _ & _ & He)]; auto.
Qed.









(** A registration request commits nothing or exactly the new row. *)
Lemma register_request_engine pwd (w : World) (user : UserCreate.t) :
  exists res w',
    get_db_session (register_user pwd user) w = (res, w') /\
    (engine w' = engine w \/
     (email_taken (engine w) (UserCreate.email user) = false /\
      engine w' = with_user (user_row pwd w user) (engine w))).
Proof.
  rewrite get_db_session_run. rewrite register_user_run by reflexivity.
  cbn [outage clock set_db view txn db engine].
  destruct (outage w (clock w)) as [e0|].
  { do 2 eexists. split; [reflexivity|]. now left. }
  destruct (hd_error _).
  { do 2 eexists. split; [reflexivity|]. now left. }
  set (w0 := tick (set_db (mk_Session [] None false) w)).
  destruct (create_user_engine pwd w0 user) as (res & w' & Hrun & _ & _ & He).
  - split; reflexivity.
  - rewrite Hrun. do 2 eexists. split; [reflexivity|].
    cbn [set_db engine]. exact He.
Qed.

(** On an empty database the startup hook leaves one company and its
    drive, and says so on the console. *)
Lemma startup_event_seeds :
  run startup_event (world_of empty) =
    (Ok tt,
     mk_World seeded
       [ ECompany (Company.mk (Some 1) (Some "TechCorp Solutions") (Some "IT")
                     (Some "Pune"));
         EDrive (Drive.mk (Some 1) (Some 1) (Some "Software Intern")
                   (Some 6.5%float) (Some (mk_datetime 2025 11 1 0 0 0 0 None))) ]
       (mk_Session [] None false) 6 (outage (world_of empty)) 0
       (urandom (world_of empty)) (sqlalchemy_str (world_of empty))
       [ "Creating initial company and drive data...";
         "Initial data created successfully." ]).
Proof. reflexivity. Qed.


(** A flush writes into the transaction, never into the committed rows. *)
Lemma db_flush_engine (w : World) : engine (snd (db_flush w)) = engine w.
Proof.
  unfold db_flush, round_trip.
  destruct (new (db w)); [reflexivity|].
  destruct (outage w (clock w)); [reflexivity|].
  destruct (flush_all _ _ _) as [[d' h']|e]; reflexivity.
Qed.

(** A SELECT never touches the committed rows, and in a session that does
    not autoflush it touches nothing of the session either. *)
Lemma db_query_frame {A} (table : Database -> list A) (params : list Z)
      (criterion : A -> bool) (w : World) :
  engine (snd (db_query table params criterion w)) = engine w /\
  (autoflush (db w) = false ->
   db (snd (db_query table params criterion w)) = db w /\
   heap (snd (db_query table params criterion w)) = heap w /\
   view (snd (db_query table params criterion w)) = view w).
Proof.
  split.
  - unfold db_query, bind_ints, bind, raise, round_trip.
    destruct (autoflush (db w)).
    + pose proof (db_flush_engine w) as Hf.
      destruct (db_flush w) as [[[]|e] w1]; cbn [snd] in *; [|exact Hf].
      destruct (forallb int64 params); [|exact Hf].
      destruct (outage w1 (clock w1)); exact Hf.
    + destruct (forallb int64 params); [|reflexivity].
      destruct (outage w (clock w)); reflexivity.
  - intros Haf. unfold db_query, bind_ints, bind, raise, round_trip. rewrite Haf.
    destruct (forallb int64 params); [|repeat split].
    destruct (outage w (clock w)); repeat split.
Qed.

(** * The claims *)

(** ** C1: drives of a company without drives *)

(** C1, as the code has it.  On a healthy engine, for a company_id
    within SQLite's 64-bit integers that no Drive row has, the access
    operation [get_drives_by_company_id] returns the empty list as a
    success, while the exposed endpoint [get_drives_by_company] raises
    HTTPException 404, "No drives found for this company."; when some
    Drive row has the company_id, both return those rows.  For a
    company_id outside that range both raise the driver's OverflowError.
    Neither ever writes. *)
Theorem list_drives_by_company (w : World) (company_id : Z) :
  healthy w ->
  let by_id := run (get_db_session (get_drives_by_company_id company_id)) w in
  let exposed := run (get_db_session (get_drives_by_company company_id)) w in
  engine (snd by_id) = engine w /\ engine (snd exposed) = engine w /\
  (int64 company_id = true ->
   fst by_id = Ok (drives_of (engine w) company_id) /\
   (drives_of (engine w) company_id = [] ->
    fst by_id = Ok [] /\
    fst exposed = Raise (HTTPException 404 "No drives found for this company.")) /\
   (drives_of (engine w) company_id <> [] ->
    fst exposed = Ok (drives_of (engine w) company_id))) /\
  (int64 company_id = false ->
   fst by_id =
     Raise (OverflowError "Python int too large to convert to SQLite INTEGER") /\
   fst exposed =
     Raise (OverflowError "Python int too large to convert to SQLite INTEGER")).
Proof.
  intros Hh. apply healthy_now in Hh. world w. exec.
  destruct (int64 company_id); exec.
  - rewrite Hh. exec.
    destruct (filter _ (drives eng)) as [|x l] eqn:Hf; exec;
      repeat split; auto; try congruence.
  - repeat split; discriminate.
Qed.

(** The seeded database has no drive of company 2. *)
Lemma list_drives_by_company_witness :
  healthy (world_of seeded) /\
  fst (run (get_db_session (get_drives_by_company_id 2)) (world_of seeded)) = Ok [] /\
  fst (run (get_db_session (get_drives_by_company 2)) (world_of seeded)) =
    Raise (HTTPException 404 "No drives found for this company.").
Proof.
  assert (H : healthy (world_of seeded)) by (intros n _; reflexivity).
  split; [exact H|].
  destruct (list_drives_by_company (world_of seeded) 2 H)
    as (_ & _ & Hin & _).
  destruct (Hin eq_refl) as (_ & Hnone & _).
  exact (Hnone eq_refl).
Defined.

(** C1 as stated fails: company 2 has no drive in the seeded database and
    the exposed endpoint answers with an error, after its one SELECT. *)
Lemma list_drives_endpoint_fails_on_empty :
  drives_of seeded 2 = [] /\
  run (get_db_session (get_drives_by_company 2)) (world_of seeded) =
    (Raise (HTTPException 404 "No drives found for this company."),
     mk_World seeded [] (mk_Session [] None false) 1 (outage (world_of seeded)) 0
       (urandom (world_of seeded)) (sqlalchemy_str (world_of seeded)) []).
Proof. split; reflexivity. Qed.

(** ** C2: registering an email twice *)



(** ** C3: creating a drive *)




(** A drive whose package is NaN and whose deadline carries an offset
    comes back with NULL and with the naive deadline. *)
Lemma create_drive_returns_the_stored_values :
  fst (run (get_db_session
              (create_drive (DriveBase.mk 1 "SDE" PrimFloat.nan
                               (mk_datetime 2025 12 1 0 0 0 0 (Some 19800)))))
           (world_of seeded)) =
    Ok (Some (Drive.mk (Some 2) (Some 1) (Some "SDE") None
                (Some (mk_datetime 2025 12 1 0 0 0 0 None)))).
Proof. reflexivity. Qed.

(** ** C4: failure of the persistence step *)

(** [commit_failure] is exactly the failure of [db.add(db_user);
    db.commit()]: the two raise [e] for a transient user in a clean
    session if and only if one of its three cases holds. *)
Lemma commit_failure_iff (w : World) (u : User.t) (e : exn) :
  clean w -> User.id u = None ->
  (exists w',
      run (db_user <- alloc (EUser u) ;; db_add db_user ;; db_commit) w =
        (Raise e, w')) <->
  commit_failure w (User.email u) e.
Proof.
  intros [Hn Ht] Hid. world w. exec. subst. destruct u as [i fn em hp0 at0 ac].
  exec. subst. exec.
  destruct (out clk) as [e0|] eqn:O0; exec.
  { split.
    - intros (w' & [= <- _]). now apply insert_outage.
    - intros Hp. inversion Hp; exec; try congruence.
      assert (e0 = e) by congruence. subst. eexists. reflexivity. }
  rewrite nth_error_snoc. exec.
  destruct (existsb _ (users eng)) eqn:Hdup; exec.
  { split.
    - intros (w' & [= <- _]). now apply duplicate_email.
    - intros Hp. inversion Hp; exec; try congruence. eexists. reflexivity. }
  rewrite next_id_absent. exec.
  destruct (out (S clk)) as [e1|] eqn:O1; exec.
  { split.
    - intros (w' & [= <- _]). now apply commit_outage.
    - intros Hp. inversion Hp; exec; try congruence.
      assert (e1 = e) by congruence. subst. eexists. reflexivity. }
  split.
  - intros (w' & [=]).
  - intros Hp. inversion Hp; exec; congruence.
Qed.





(** ** C5: create, then find by email *)



(** ** C7: the two login failures *)

(** C7, as the code has it.  On a healthy engine a login with an email of
    no User raises HTTPException 401, "Invalid credentials", while a login
    with an email of an existing User raises AttributeError, whatever the
    context and whatever else the body holds: the [UserSchema] body has no
    [password] attribute to verify.  The two failures are told apart. *)
Theorem login_failures_differ pwd (w : World) (user_data : UserSchema.t) :
  healthy w ->
  (email_taken (engine w) (UserSchema.email user_data) = false ->
   fst (run (get_db_session (login_user pwd user_data)) w) =
     Raise (HTTPException 401 "Invalid credentials")) /\
  (email_taken (engine w) (UserSchema.email user_data) = true ->
   fst (run (get_db_session (login_user pwd user_data)) w) =
     Raise (AttributeError "'UserSchema' object has no attribute 'password'")).
Proof.
  intros Hh. apply healthy_now in Hh. world w. exec. rewrite Hh. exec.
  pose proof (first_with_email eng (UserSchema.email user_data)) as Hfirst.
  exec. split; intros Ht.
  - destruct (hd_error _); [destruct Hfirst; congruence | reflexivity].
  - destruct (hd_error _); [reflexivity | congruence].
Qed.

(** No login ever succeeds, in any state: the only exits of [login_user]
    are a failed SELECT, the 401 for an unknown email and the
    AttributeError for a known one. *)
Lemma login_never_succeeds pwd (w : World) (user_data : UserSchema.t) :
  exists e w', run (login_user pwd user_data) w = (Raise e, w').
Proof.
  unfold run, login_user, get_user_by_email, first, bind, ret, lift, raise.
  destruct (db_query users _ _ w) as [[rows|e] w1].
  - destruct (hd_error rows) as [u|]; do 2 eexists; reflexivity.
  - do 2 eexists; reflexivity.
Qed.

(** After Alice has registered: a login for nobody, and one for Alice. *)
Lemma login_failures_differ_witness :
  let registered :=
    snd (run (get_db_session (register_user toy_context alice)) (world_of seeded)) in
  healthy registered /\
  fst (run (get_db_session
              (login_user toy_context
                 (UserSchema.mk 1 "Alice" "nobody@example.com" "student")))
           registered) =
    Raise (HTTPException 401 "Invalid credentials") /\
  fst (run (get_db_session
              (login_user toy_context
                 (UserSchema.mk 1 "Alice" "alice@example.com" "student")))
           registered) =
    Raise (AttributeError "'UserSchema' object has no attribute 'password'").
Proof.
  cbv zeta.
  set (registered :=
         snd (run (get_db_session (register_user toy_context alice)) (world_of seeded))).
  assert (H : healthy registered) by (intros n _; reflexivity).
  split; [exact H|]. split.
  - destruct (login_failures_differ toy_context registered
                (UserSchema.mk 1 "Alice" "nobody@example.com" "student") H)
      as [Hunknown _].
    exact (Hunknown eq_refl).
  - destruct (login_failures_differ toy_context registered
                (UserSchema.mk 1 "Alice" "alice@example.com" "student") H)
      as [_ Hknown].
    exact (Hknown eq_refl).
Defined.

(** ** C8: the account type that is stored *)




(** ** C9: the canned recommendations *)

(** C9. [get_recommendations] ignores its argument: for every user_id it
    returns the same canned list of two {role, match_score} records, and
    the endpoint passes that list on unchanged. *)
Theorem get_recommendations_fixed (user_id other_id : Z) :
  get_recommendations user_id = get_recommendations other_id /\
  get_recommendations user_id =
    [ mk_Recommendation "Simulated Data Analyst" 0x1.b333333333333p-1%float;
      mk_Recommendation "Simulated Software Engineer" 0x1.947ae147ae148p-1%float ] /\
  RecommendationsResponse.recommendations (get_user_recommendations user_id) =
    get_recommendations other_id.
Proof. repeat split. Qed.

(** ** C10: reads *)

(** C10. [get_user_by_email] and [get_drives_by_company_id] leave the
    committed rows of every table as they were, for every state and
    argument; in a session configured as [SessionLocal] configures it
    (autoflush off) they also leave the session, the rows it sees and the
    instances untouched. *)
Theorem reads_do_not_write (w : World) (email : string) (company_id : Z) :
  let w1 := snd (run (get_user_by_email email) w) in
  let w2 := snd (run (get_drives_by_company_id company_id) w) in
  engine w1 = engine w /\ engine w2 = engine w /\
  (autoflush (db w) = false ->
   db w1 = db w /\ heap w1 = heap w /\ view w1 = view w /\
   db w2 = db w /\ heap w2 = heap w /\ view w2 = view w).
Proof.
  cbv zeta. unfold run, get_user_by_email, get_drives_by_company_id, first, all.
  pose proof (db_query_frame users [] (fun u => String.eqb (User.email u) email) w)
    as [H1 H1'].
  pose proof (db_query_frame drives [company_id]
                (fun d => id_is company_id (Drive.company_id d)) w) as [H2 H2'].
  unfold bind, ret.
  destruct (db_query users _ _ w) as [[rows|e] w1]; cbn [snd] in *;
    (split; [exact H1|]); (split; [exact H2|]);
    intros Haf; specialize (H1' Haf); specialize (H2' Haf); intuition.
Qed.

(** A fresh session on the seeded database does not autoflush. *)
Lemma reads_do_not_write_witness :
  autoflush (db (world_of seeded)) = false /\
  db (snd (run (get_user_by_email "alice@example.com") (world_of seeded))) =
    db (world_of seeded) /\
  engine (snd (run (get_drives_by_company_id 1) (world_of seeded))) = seeded.
Proof.
  split; [reflexivity|].
  destruct (reads_do_not_write (world_of seeded) "alice@example.com" 1)
    as (_ & He & Hsession).
  destruct (Hsession eq_refl) as (Hdb & _).
  split; [exact Hdb | exact He].
Defined.

(** * Further properties of the code *)

(** ** The users table under registration *)

(** Appending a new element keeps a list free of duplicates. *)
Lemma NoDup_snoc {A} (l : list A) (x : A) :
  NoDup l -> ~ In x l -> NoDup (l ++ [x]).
Proof.
  intros Hl Hx. apply NoDup_app; [assumption | repeat constructor; intros [] |].
  intros a Ha [<- | []]. contradiction.
Qed.

(** A free email is the email of no row. *)
Lemma email_free_not_in (d : Database) (email : string) :
  email_taken d email = false -> ~ In email (map User.email (users d)).
Proof.
  unfold email_taken. rewrite existsb_false_iff. intros Hfree Hin.
  apply in_map_iff in Hin as (u & Heq & Hu).
  specialize (Hfree u Hu). unfold has_email in Hfree.
  rewrite Heq, String.eqb_refl in Hfree. discriminate.
Qed.

(** The next key is the key of no row. *)
Lemma next_id_not_in {A} (key : A -> option Z) (rows : list A) :
  ~ In (Some (next_id (map key rows))) (map key rows).
Proof.
  intros Hin. apply in_map_iff in Hin as (r & Heq & Hr).
  pose proof (next_id_absent key rows) as Habs.
  rewrite existsb_false_iff in Habs. specialize (Habs r Hr).
  unfold id_is in Habs. rewrite Heq, Z.eqb_refl in Habs. discriminate.
Qed.

(** A row inserted under the next key keeps the primary key. *)
Lemma keyed_snoc {A} (key : A -> option Z) (rows : list A) (row : A) :
  keyed key rows ->
  key row = Some (next_id (map key rows)) ->
  keyed key (rows ++ [row]).
Proof.
  intros [Hsome Hnd] Hrow. split.
  - intros r Hr. apply in_app_or in Hr as [Hr | [<- | []]]; [now apply Hsome|].
    rewrite Hrow. discriminate.
  - rewrite map_app. cbn [map]. apply NoDup_snoc; [assumption|].
    rewrite Hrow. apply next_id_not_in.
Qed.

(** X1. A registration request keeps the emails of the users table
    pairwise distinct, whatever the engine does and whether the request
    succeeds or fails. *)
Theorem register_keeps_emails_unique pwd (w : World) (user : UserCreate.t) :
  emails_unique (engine w) ->
  emails_unique (engine (snd (run (get_db_session (register_user pwd user)) w))).
Proof.
  intros Hu. unfold run.
  destruct (register_request_engine pwd w user) as (res & w' & -> & He).
  cbn [snd]. destruct He as [-> | (Hfree & ->)]; [assumption|].
  unfold emails_unique, with_user. cbn [users]. rewrite map_app. cbn [map].
  apply NoDup_snoc; [assumption|].
  unfold user_row. cbn [User.email]. now apply email_free_not_in.
Qed.

(** Alice registers in the seeded database. *)
Lemma register_keeps_emails_unique_witness :
  emails_unique (engine (world_of seeded)) /\
  emails_unique (engine (snd (run (get_db_session (register_user toy_context alice))
                                  (world_of seeded)))).
Proof.
  assert (H : emails_unique (engine (world_of seeded))) by constructor.
  split; [exact H|].
  exact (register_keeps_emails_unique toy_context (world_of seeded) alice H).
Defined.

(** X2. A registration request keeps the primary key of the users table:
    every row has an identifier and no two rows share one, whatever the
    engine does. *)
Theorem register_keeps_user_ids pwd (w : World) (user : UserCreate.t) :
  keyed User.id (users (engine w)) ->
  keyed User.id (users (engine (snd (run (get_db_session (register_user pwd user)) w)))).
Proof.
  intros Hk. unfold run.
  destruct (register_request_engine pwd w user) as (res & w' & -> & He).
  cbn [snd]. destruct He as [-> | (_ & ->)]; [assumption|].
  unfold with_user. cbn [users]. apply keyed_snoc; [assumption | reflexivity].
Qed.

(** Alice registers in the seeded database. *)
Lemma register_keeps_user_ids_witness :
  keyed User.id (users (engine (world_of seeded))) /\
  keyed User.id
    (users (engine (snd (run (get_db_session (register_user toy_context alice))
                             (world_of seeded))))).
Proof.
  assert (H : keyed User.id (users (engine (world_of seeded)))).
  { split; [intros r [] | constructor]. }
  split; [exact H|].
  exact (register_keeps_user_ids toy_context (world_of seeded) alice H).
Defined.

(** X3. Registration uses the password only through its digest: two
    registrations that differ in the password alone, with passwords of
    the same digest under the drawn salt, have the same result and leave
    the same world (rows, session, console).  The plaintext is neither
    stored nor printed. *)
Theorem registration_sees_only_the_digest pwd (w : World) (user : UserCreate.t)
        (p1 p2 : string) :
  hash pwd (urandom w (draws w)) p1 = hash pwd (urandom w (draws w)) p2 ->
  run (get_db_session (register_user pwd (with_password user p1))) w =
  run (get_db_session (register_user pwd (with_password user p2))) w.
Proof.
  intros Hd. unfold run. rewrite !get_db_session_run.
  rewrite !register_user_run by reflexivity.
  cbn [outage clock set_db view txn db engine with_password UserCreate.email].
  destruct (outage w (clock w)); [reflexivity|].
  destruct (hd_error _); [reflexivity|].
  unfold create_user, get_password_hash, bind at 1 3, with_password.
  cbn [UserCreate.password UserCreate.full_name UserCreate.email
       UserCreate.account_type urandom draws tick set_db].
  rewrite Hd. reflexivity.
Qed.

(** Two passwords with the same first eight characters, under a context
    that digests only those. *)
Lemma registration_sees_only_the_digest_witness :
  hash short_context "salt" "correct horse battery" =
  hash short_context "salt" "correct mule" /\
  run (get_db_session
         (register_user short_context (with_password alice "correct horse battery")))
      (world_of seeded) =
  run (get_db_session
         (register_user short_context (with_password alice "correct mule")))
      (world_of seeded).
Proof.
  split; [reflexivity|].
  exact (registration_sees_only_the_digest short_context (world_of seeded) alice
           "correct horse battery" "correct mule" eq_refl).
Defined.



(** ** Login *)

(** X5. [login_user] never returns a login response and never changes
    the committed rows: in every state and for every body it raises. *)
Theorem login_always_fails pwd (w : World) (user_data : UserSchema.t) :
  exists e w',
    run (login_user pwd user_data) w = (Raise e, w') /\
    engine w' = engine w.
Proof.
  unfold run, login_user, get_user_by_email, first, bind, ret, lift, raise.
  pose proof (db_query_frame users []
                (fun u => String.eqb (User.email u) (UserSchema.email user_data)) w)
    as [He _].
  destruct (db_query users _ _ w) as [[rows|e] w1]; cbn [snd] in He.
  - destruct (hd_error rows) as [u|]; do 2 eexists; split; try reflexivity; exact He.
  - do 2 eexists; split; [reflexivity | exact He].
Qed.

(** ** Drives *)



(** A request that creates a drive, case by case. *)
Lemma create_drive_cases (w : World) (drive : DriveBase.t) :
  exists res w',
    get_db_session (create_drive drive) w = (res, w') /\
    clean w' /\ outage w' = outage w /\ (clock w <= clock w')%nat /\
    ((engine w' = engine w /\
      match res with
      | Ok _ => False
      | Raise e =>
          (int64 (DriveBase.company_id drive) = false /\
           e = OverflowError "Python int too large to convert to SQLite INTEGER") \/
          (int64 (DriveBase.company_id drive) = true /\
           outage w (clock w) = Some e) \/
          (int64 (DriveBase.company_id drive) = true /\
           outage w (clock w) = None /\
           company_known (engine w) (DriveBase.company_id drive) = false /\
           e = HTTPException 404 "Company ID not found.") \/
          (int64 (DriveBase.company_id drive) = true /\
           outage w (clock w) = None /\
           company_known (engine w) (DriveBase.company_id drive) = true /\
           (outage w (1 + clock w)%nat = Some e \/
            outage w (2 + clock w)%nat = Some e))
      end) \/
     (engine w' = with_drive (drive_row (engine w) drive) (engine w) /\
      int64 (DriveBase.company_id drive) = true /\
      company_known (engine w) (DriveBase.company_id drive) = true /\
      outage w (clock w) = None /\
      outage w (1 + clock w)%nat = None /\
      outage w (2 + clock w)%nat = None /\
      match res with
      | Ok o =>
          o = Some (drive_row (engine w) drive) /\
          outage w (3 + clock w)%nat = None /\
          outage w (4 + clock w)%nat = None
      | Raise e =>
          outage w (3 + clock w)%nat = Some e \/
          (outage w (3 + clock w)%nat = None /\
           outage w (4 + clock w)%nat = Some e)
      end)).
Proof.
  world w. exec. cbn [Nat.add].
  pose proof (hd_error_filter_existsb
                (fun c => id_is (DriveBase.company_id drive) (Company.id c))
                (companies eng)) as Hfirst.
  destruct (int64 (DriveBase.company_id drive)) eqn:Hr; exec.
  2:{ done_run. repeat split; try lia. left. auto. }
  destruct (out clk) as [e0|] eqn:O0; exec.
  { done_run. repeat split; try lia. left. auto. }
  destruct (hd_error _); exec.
  2:{ done_run. repeat split; try lia. left. split; [reflexivity|].
      right. right. left. auto. }
  destruct Hfirst as [Hk _].
  destruct (out (S clk)) as [e1|] eqn:O1; exec.
  { done_run. repeat split; try lia. left. split; [reflexivity|].
    right. right. right. auto. }
  rewrite nth_error_snoc. exec. rewrite Hr. exec. rewrite next_id_absent. exec.
  destruct (out (S (S clk))) as [e2|] eqn:O2; exec.
  { done_run. repeat split; try lia. left. split; [reflexivity|].
    right. right. right. auto 6. }
  rewrite store_snoc, nth_error_snoc. exec.
  destruct (out (S (S (S clk)))) as [e3|] eqn:O3; exec.
  { done_run. repeat split; try lia. right. repeat split; auto. }
  rewrite find_snoc; [| apply next_id_absent | cbn; apply Z.eqb_refl ].
  exec. rewrite store_snoc, nth_error_snoc. exec.
  destruct (out (S (S (S (S clk))))) as [e4|] eqn:O4; exec.
  { done_run. repeat split; try lia. right. repeat split; auto. }
  rewrite filter_snoc_only; [| apply next_id_absent | cbn; apply Z.eqb_refl ].
  exec. done_run. repeat split; try lia. right. repeat split; auto.
Qed.

(** X6. A create-drive request writes the one new Drive row or nothing,
    whatever the engine does and whatever the company_id; the row holds
    the values as the columns store them.  The request leaves the session
    without pending instances and without a transaction; and whenever it
    returns, it returns that row and the row is committed. *)
Theorem create_drive_writes_the_row_or_nothing (w : World) (drive : DriveBase.t) :
  let request := get_db_session (create_drive drive) in
  let w' := snd (run request w) in
  clean w' /\
  (engine w' = engine w \/
   (company_known (engine w) (DriveBase.company_id drive) = true /\
    int64 (DriveBase.company_id drive) = true /\
    engine w' = with_drive (drive_row (engine w) drive) (engine w))) /\
  (forall o, fst (run request w) = Ok o ->
     o = Some (drive_row (engine w) drive) /\
     engine w' = with_drive (drive_row (engine w) drive) (engine w)).
Proof.
  cbv zeta. unfold run.
  destruct (create_drive_cases w drive) as (res & w' & -> & Hc & _ & _ & Hcases).
  cbn [fst snd]. split; [exact Hc|]. split.
  - destruct Hcases as [(He & _) | (He & Hr & Hk & _)]; auto.
  - intros o ->. destruct Hcases as [(_ & []) | (He & _ & _ & _ & _ & _ & Ho & _)].
    auto.
Qed.

(** X7. A create-drive request keeps the integrity of the drives table,
    whatever the engine does: every Drive has an identifier of its own,
    and every Drive names a company of the companies table. *)
Theorem create_drive_keeps_integrity (w : World) (drive : DriveBase.t) :
  keyed Drive.id (drives (engine w)) ->
  drives_reference_companies (engine w) ->
  let w' := snd (run (get_db_session (create_drive drive)) w) in
  keyed Drive.id (drives (engine w')) /\ drives_reference_companies (engine w').
Proof.
  intros Hkey Href. cbv zeta. unfold run.
  destruct (create_drive_cases w drive) as (res & w' & -> & _ & _ & _ & Hcases).
  cbn [snd].
  destruct Hcases as [(-> & _) | (-> & _ & Hk & _)]; [split; assumption|].
  unfold with_drive. cbn [drives]. split.
  - apply keyed_snoc; [assumption | reflexivity].
  - intros x Hx. unfold company_known. cbn [companies drives] in *.
    apply in_app_or in Hx as [Hx | [<- | []]].
    + exact (Href x Hx).
    + exists (DriveBase.company_id drive). split; [reflexivity | exact Hk].
Qed.

(** A second drive for the seeded company. *)
Lemma create_drive_keeps_integrity_witness :
  keyed Drive.id (drives (engine (world_of seeded))) /\
  drives_reference_companies (engine (world_of seeded)) /\
  drives_reference_companies
    (engine (snd (run (get_db_session (create_drive sde_drive)) (world_of seeded)))).
Proof.
  assert (Hkey : keyed Drive.id (drives (engine (world_of seeded)))).
  { split.
    - intros r [<- | []]. discriminate.
    - repeat constructor. intros []. }
  assert (Href : drives_reference_companies (engine (world_of seeded))).
  { intros x [<- | []]. exists 1. split; reflexivity. }
  split; [exact Hkey|]. split; [exact Href|].
  exact (proj2 (create_drive_keeps_integrity (world_of seeded) sde_drive Hkey Href)).
Defined.






(** ** Startup *)

Lemma hd_error_filter_all {A} (l : list A) :
  hd_error (filter (fun _ => true) l) = hd_error l.
Proof. destruct l; reflexivity. Qed.

(** With a company in the table, [startup_event] writes and prints
    nothing. *)
Lemma startup_event_noop (w : World) :
  companies (engine w) <> [] ->
  engine (snd (run startup_event w)) = engine w /\
  stdout (snd (run startup_event w)) = stdout w.
Proof.
  intros Hne. unfold startup_event. world w. exec.
  destruct (out clk); exec; [split; reflexivity|].
  rewrite hd_error_filter_all.
  destruct (companies eng) as [|c cs] eqn:Hc; [congruence|]. exec.
  split; reflexivity.
Qed.



(** [startup_event] on a database without companies, case by case. *)
Lemma startup_event_cases (w : World) :
  companies (engine w) = [] ->
  exists res w',
    run startup_event w = (res, w') /\
    outage w' = outage w /\ (clock w <= clock w')%nat /\
    match res with
    | Ok _ =>
        (forall n, (n < 6)%nat -> outage w (n + clock w)%nat = None) /\
        engine w' =
          with_drive (seed_drive_row (engine w))
            (with_company seed_company_row (engine w)) /\
        stdout w' = stdout w ++ [ "Creating initial company and drive data...";
                                  "Initial data created successfully." ]
    | Raise e =>
        (engine w' = engine w /\
         (outage w (clock w) = Some e \/
          outage w (1 + clock w)%nat = Some e \/
          outage w (2 + clock w)%nat = Some e)) \/
        (engine w' = with_company seed_company_row (engine w) /\
         outage w (clock w) = None /\
         outage w (1 + clock w)%nat = None /\
         outage w (2 + clock w)%nat = None /\
         (outage w (3 + clock w)%nat = Some e \/
          (outage w (3 + clock w)%nat = None /\
           (outage w (4 + clock w)%nat = Some e \/
            (outage w (4 + clock w)%nat = None /\
             outage w (5 + clock w)%nat = Some e)))))
    end.
Proof.
  intros Hc. unfold startup_event. world w. destruct eng as [us cs ds aps].
  cbn [engine companies] in Hc. subst cs. exec. cbn [Nat.add].
  destruct (out clk) as [e0|] eqn:O0; exec.
  { done_run. repeat split; try lia. left. auto. }
  cbn [filter hd_error]. exec.
  destruct (out (S clk)) as [e1|] eqn:O1; exec.
  { done_run. repeat split; try lia. left. auto. }
  rewrite nth_error_snoc. exec.
  cbn [existsb map next_id max_id]. exec.
  destruct (out (S (S clk))) as [e2|] eqn:O2; exec.
  { done_run. repeat split; try lia. left. auto. }
  rewrite store_snoc, nth_error_snoc. exec.
  destruct (out (S (S (S clk)))) as [e3|] eqn:O3; exec.
  { done_run. repeat split; try lia. right. repeat split; auto. }
  cbn [find id_is Company.id]. rewrite Z.eqb_refl. exec.
  rewrite store_snoc, nth_error_snoc. exec.
  destruct (out (S (S (S (S clk))))) as [e4|] eqn:O4; exec.
  { done_run. repeat split; try lia. right. repeat split; auto. }
  rewrite nth_error_snoc. exec.
  change (int64 1) with true. exec. rewrite next_id_absent. exec.
  destruct (out (S (S (S (S (S clk)))))) as [e5|] eqn:O5; exec.
  { done_run. repeat split; try lia. right. repeat split; auto. }
  done_run. repeat split; try lia.
  - intros n Hn. do 6 (destruct n as [|n]; [assumption|]). lia.
  - now rewrite <- app_assoc.
Qed.


(** X11. Seeding happens once: after a [startup_event] that returned, the
    companies table is not empty, and every later [startup_event] on
    these rows leaves them as they are and prints nothing, whatever the
    engine does. *)
Theorem startup_event_seeds_once (w : World) :
  fst (run startup_event w) = Ok tt ->
  let w1 := snd (run startup_event w) in
  companies (engine w1) <> [] /\
  forall w2, engine w2 = engine w1 ->
    engine (snd (run startup_event w2)) = engine w2 /\
    stdout (snd (run startup_event w2)) = stdout w2.
Proof.
  intros Hok. cbv zeta.
  assert (Hne : companies (engine (snd (run startup_event w))) <> []).
  { destruct (companies (engine w)) as [|c cs] eqn:Hc.
    - destruct (startup_event_cases w Hc) as (res & w' & Hrun & _ & _ & Hres).
      rewrite Hrun in *. cbn [fst snd] in *. subst res.
      destruct Hres as (_ & -> & _).
      unfold with_drive, with_company. cbn [companies]. rewrite Hc. discriminate.
    - assert (Hne : companies (engine w) <> []) by (rewrite Hc; discriminate).
      destruct (startup_event_noop w Hne) as (-> & _). exact Hne. }
  split; [exact Hne|].
  intros w2 He.
  assert (Hne2 : companies (engine w2) <> []) by (rewrite He; exact Hne).
  exact (startup_event_noop w2 Hne2).
Qed.

(** Startup twice on the empty database. *)
Lemma startup_event_seeds_once_witness :
  fst (run startup_event (world_of empty)) = Ok tt /\
  engine (snd (run startup_event (snd (run startup_event (world_of empty))))) = seeded.
Proof.
  split; [reflexivity|].
  destruct (startup_event_seeds_once (world_of empty) eq_refl) as (_ & Hlater).
  destruct (Hlater (snd (run startup_event (world_of empty))) eq_refl) as (He & _).
  rewrite He. reflexivity.
Defined.

(** [startup_event] on a healthy engine and a database without
    companies. *)
Lemma startup_event_healthy (w : World) :
  healthy w ->
  companies (engine w) = [] ->
  exists w',
    run startup_event w = (Ok tt, w') /\
    engine w' =
      with_drive (seed_drive_row (engine w))
        (with_company seed_company_row (engine w)) /\
    stdout w' = stdout w ++ [ "Creating initial company and drive data...";
                              "Initial data created successfully." ] /\
    outage w' = outage w /\ (clock w <= clock w')%nat.
Proof.
  intros Hh Hc.
  destruct (startup_event_cases w Hc) as (res & w' & Hrun & Ho & Hk & Hres).
  assert (N0 : outage w (clock w) = None) by (apply Hh; lia).
  assert (N1 : outage w (1 + clock w)%nat = None) by (apply Hh; lia).
  assert (N2 : outage w (2 + clock w)%nat = None) by (apply Hh; lia).
  assert (N3 : outage w (3 + clock w)%nat = None) by (apply Hh; lia).
  assert (N4 : outage w (4 + clock w)%nat = None) by (apply Hh; lia).
  assert (N5 : outage w (5 + clock w)%nat = None) by (apply Hh; lia).
  destruct res as [[]|e].
  - destruct Hres as (_ & He & Hout). exists w'. auto 8.
  - exfalso.
    destruct Hres as [(_ & [H | [H | H]])
                     | (_ & _ & _ & _ & [H | (_ & [H | (_ & H)])])];
      congruence.
Qed.

(** The seeded drive is the last drive of company 1. *)
Lemma drives_of_seeded (d : Database) :
  companies d = [] ->
  drives_of (with_drive (seed_drive_row d) (with_company seed_company_row d)) 1 =
    drives_of d 1 ++ [seed_drive_row d] /\
  company_known (with_drive (seed_drive_row d) (with_company seed_company_row d)) 1 = true.
Proof.
  intros Hc. unfold drives_of, company_known, with_drive, with_company.
  cbn [drives companies]. rewrite Hc, filter_app. split; reflexivity.
Qed.

(** X12. On a healthy engine and a database without companies,
    [startup_event] adds the company "TechCorp Solutions" with identifier
    1 and one "Software Intern" drive that names it, leaves the other
    tables alone and prints its two lines. *)
Theorem startup_event_seeds_company_and_drive (w : World) :
  healthy w ->
  companies (engine w) = [] ->
  exists w',
    run startup_event w = (Ok tt, w') /\
    engine w' =
      with_drive (seed_drive_row (engine w))
        (with_company seed_company_row (engine w)) /\
    drives_of (engine w') 1 = drives_of (engine w) 1 ++ [seed_drive_row (engine w)] /\
    company_known (engine w') 1 = true /\
    users (engine w') = users (engine w) /\
    applications (engine w') = applications (engine w) /\
    stdout w' = stdout w ++ [ "Creating initial company and drive data...";
                              "Initial data created successfully." ].
Proof.
  intros Hh Hc.
  destruct (startup_event_healthy w Hh Hc) as (w' & Hrun & He & Hout & _).
  destruct (drives_of_seeded (engine w) Hc) as [Hd Hk].
  exists w'. rewrite He. auto 8.
Qed.

(** Startup on the empty database gives the seeded one. *)
Lemma startup_event_seeds_company_and_drive_witness :
  healthy (world_of empty) /\
  companies (engine (world_of empty)) = [] /\
  exists w', run startup_event (world_of empty) = (Ok tt, w') /\ engine w' = seeded.
Proof.
  assert (H : healthy (world_of empty)) by (intros n _; reflexivity).
  split; [exact H|]. split; [reflexivity|].
  destruct (startup_event_seeds_company_and_drive (world_of empty) H eq_refl)
    as (w' & Hrun & He & _).
  exists w'. split; [exact Hrun|]. rewrite He. reflexivity.
Defined.



(** A request for the drives of a company, on an engine that answers. *)
Lemma drives_request (w : World) (company_id : Z) :
  int64 company_id = true ->
  outage w (clock w) = None ->
  fst (run (get_db_session (get_drives_by_company company_id)) w) =
    match drives_of (engine w) company_id with
    | [] => Raise (HTTPException 404 "No drives found for this company.")
    | x :: l => Ok (x :: l)
    end /\
  fst (run (get_db_session (get_drives_by_company_id company_id)) w) =
    Ok (drives_of (engine w) company_id).
Proof.
  intros Hr H0. world w. exec. rewrite Hr. exec. rewrite H0. exec.
  destruct (filter _ (drives eng)); split; reflexivity.
Qed.

(** X14. After a startup that seeded a database without companies, on a
    healthy engine, both [get_drives_by_company 1] and
    [get_drives_by_company_id 1] return the drives that named company 1
    before, followed by the seeded drive. *)
Theorem seeded_drive_is_listed (w : World) :
  healthy w ->
  companies (engine w) = [] ->
  let w1 := snd (run startup_event w) in
  fst (run (get_db_session (get_drives_by_company 1)) w1) =
    Ok (drives_of (engine w) 1 ++ [seed_drive_row (engine w)]) /\
  fst (run (get_db_session (get_drives_by_company_id 1)) w1) =
    Ok (drives_of (engine w) 1 ++ [seed_drive_row (engine w)]).
Proof.
  intros Hh Hc. cbv zeta.
  destruct (startup_event_healthy w Hh Hc) as (w' & Hrun & He & _ & Ho & Hk).
  rewrite Hrun. cbn [snd].
  assert (H0 : outage w' (clock w') = None) by (rewrite Ho; apply Hh; exact Hk).
  destruct (drives_request w' 1 eq_refl H0) as [Hexposed Hby_id].
  destruct (drives_of_seeded (engine w) Hc) as [Hd _]. rewrite <- He in Hd.
  rewrite Hexposed, Hby_id, Hd. split; [|reflexivity].
  destruct (drives_of (engine w) 1); reflexivity.
Qed.

(** On the empty database the one drive listed is the seeded one. *)
Lemma seeded_drive_is_listed_witness :
  healthy (world_of empty) /\
  companies (engine (world_of empty)) = [] /\
  fst (run (get_db_session (get_drives_by_company 1))
           (snd (run startup_event (world_of empty)))) =
    Ok [ Drive.mk (Some 1) (Some 1) (Some "Software Intern") (Some 6.5%float)
           (Some (mk_datetime 2025 11 1 0 0 0 0 None)) ].
Proof.
  assert (H : healthy (world_of empty)) by (intros n _; reflexivity).
  split; [exact H|]. split; [reflexivity|].
  destruct (seeded_drive_is_listed (world_of empty) H eq_refl) as [Hexposed _].
  rewrite Hexposed. reflexivity.
Defined.

(** ** Preferences *)

(** X15. [update_preferences] stores nothing.  A user_id in the path that
    differs from the one in the body raises HTTPException 400, "User ID
    mismatch in path and body.", and leaves the world as it was; equal
    ids return the acknowledgement echoing the dumped body and print one
    console line that names the user_id only; and the world after the
    call is the same whatever the theme is. *)
Theorem update_preferences_stores_nothing (user_id : Z)
        (preference : UserPreferenceSchema.t) (w : World) :
  (user_id <> UserPreferenceSchema.user_id preference ->
   run (update_preferences user_id preference) w =
     (Raise (HTTPException 400 "User ID mismatch in path and body."), w)) /\
  (user_id = UserPreferenceSchema.user_id preference ->
   run (update_preferences user_id preference) w =
     (Ok (PreferencesResponse.mk "User preferences updated (MongoDB simulated)"
            (UserPreferenceSchema.model_dump preference)),
      emit ("MongoDB Simulation: Updated preferences for user " ++ str_int user_id)%string
        w)) /\
  (forall theme,
     snd (run (update_preferences user_id
                 (UserPreferenceSchema.mk (UserPreferenceSchema.user_id preference) theme))
              w) =
     snd (run (update_preferences user_id preference) w)).
Proof.
  unfold run, update_preferences, update_user_preference, bind, ret, raise, print.
  cbn [UserPreferenceSchema.user_id UserPreferenceSchema.theme
       UserPreferenceSchema.model_dump].
  destruct (Z.eqb_spec user_id (UserPreferenceSchema.user_id preference)) as [Heq|Hne];
    cbn [negb].
  - split; [intros Hne; contradiction|]. split; reflexivity.
  - split; [reflexivity|]. split; [intros Heq; contradiction | reflexivity].
Qed.

(** User 7 with a body for user 8, and with bodies of her own. *)
Lemma update_preferences_stores_nothing_witness :
  run (update_preferences 7 (UserPreferenceSchema.init 8 None)) (world_of seeded) =
    (Raise (HTTPException 400 "User ID mismatch in path and body."), world_of seeded) /\
  fst (run (update_preferences 7 (UserPreferenceSchema.init 7 None)) (world_of seeded)) =
    Ok (PreferencesResponse.mk "User preferences updated (MongoDB simulated)"
          [ ("user_id", PyInt 7); ("theme", PyStr "light") ]) /\
  stdout (snd (run (update_preferences 7 (UserPreferenceSchema.init 7 (Some "dark")))
                   (world_of seeded))) =
    [ "MongoDB Simulation: Updated preferences for user 7" ].
Proof.
  destruct (update_preferences_stores_nothing 7 (UserPreferenceSchema.init 8 None)
              (world_of seeded)) as (Hmis & _ & _).
  destruct (update_preferences_stores_nothing 7 (UserPreferenceSchema.init 7 None)
              (world_of seeded)) as (_ & Hok & _).
  destruct (update_preferences_stores_nothing 7 (UserPreferenceSchema.init 7 (Some "dark"))
              (world_of seeded)) as (_ & Hdark & _).
  split; [apply Hmis; discriminate|].
  split; [rewrite (Hok eq_refl); reflexivity|].
  rewrite (Hdark eq_refl). reflexivity.
Defined.
